(** * The JIT memory observer (torch/csrc/jit/passes/memory_planning/memory_observer.h)

    A shallow embedding of the event model of the memory observer
    ([MemoryEvent], [FunctionFrameEvent], [MemoryObserverEvent]), of its
    stream printers, and of the thread-local collector state
    [MemoryObserverThreadLocalState].

    Conventions.
    - C++ integers ([size_t], [int64_t], [intptr_t], [at::CallbackHandle])
      are values of [Z]; the header compares and prints them and does no
      arithmetic on them.
    - A [std::ostream] is the text written to it so far; [out << x] appends
      the rendering of [x].
    - A C++ operation that can throw returns a [result]. *)

From Stdlib Require Import ZArith List String Ascii Bool Lia DecimalString.
From Stdlib Require DecimalZ.
Import ListNotations.
Local Open Scope Z_scope.

(** ** Exceptions *)

Inductive exception : Type :=
| bad_optional_access   (* c10::optional<T>::value() on an empty optional *)
| schema_not_found      (* Node::schema() on a node that has no schema *)
| callback_not_found.   (* removing a registration that is not live *)

Inductive result (A : Type) : Type :=
| Ok (a : A)
| Throw (e : exception).
Arguments Ok {A} a.
Arguments Throw {A} e.

Definition bind {A B : Type} (r : result A) (k : A -> result B) : result B :=
  match r with
  | Ok a => k a
  | Throw e => Throw e
  end.

Notation "x <- r ;; k" := (bind r (fun x => k))
  (at level 61, r at next level, right associativity).

(** [c10::optional<T>::value()] (and the guarded [operator->]). *)
Definition value {A : Type} (o : option A) : result A :=
  match o with
  | Some a => Ok a
  | None => Throw bad_optional_access
  end.

(** [if (o)] on an optional. *)
Definition has_value {A : Type} (o : option A) : bool :=
  match o with Some _ => true | None => false end.

(** ** Output streams *)

Definition ostream : Type := string.

Definition nl : string := String (ascii_of_nat 10) EmptyString.

Definition put (out : ostream) (s : string) : ostream := (out ++ s)%string.
Infix "<<" := put (at level 50, left associativity).

(** [out << n] for an integer prints it in decimal. *)
Definition string_of_Z (z : Z) : string := NilZero.string_of_int (Z.to_int z).

(** [contains needle hay]: [needle] occurs in [hay] (used to inspect what a
    printer wrote). *)
Fixpoint contains (needle hay : string) : bool :=
  if prefix needle hay then true
  else match hay with
       | EmptyString => false
       | String _ rest => contains needle rest
       end.

(** The line feed that [nl] holds. *)
Definition newline : ascii := ascii_of_nat 10.

(** Every character of [s] satisfies [p]. *)
Fixpoint all_chars (p : ascii -> bool) (s : string) : bool :=
  match s with
  | EmptyString => true
  | String c rest => p c && all_chars p rest
  end.

(** The character [c] occurs in [s]. *)
Fixpoint occurs (c : ascii) (s : string) : bool :=
  match s with
  | EmptyString => false
  | String c' rest => Ascii.eqb c' c || occurs c rest
  end.

(** The characters of a printed integer: the ten digits and the minus
    sign. *)
Definition numeric_char (c : ascii) : bool :=
  match c with
  | "0" | "1" | "2" | "3" | "4" | "5" | "6" | "7" | "8" | "9" | "-" => true
  | _ => false
  end%char.

(** [inline int64_t timeSinceEpoch()]: the reading of the system clock, in
    microseconds since the epoch.  The clock is the argument. *)
Definition timeSinceEpoch (system_clock_now_us : Z) : Z := system_clock_now_us.

(** ** Event kinds *)

(** [enum class EventType { ALLOCATE = 0, FREE }]. *)
Inductive EventType : Type := ALLOCATE | FREE.

Definition EventType_eqb (a b : EventType) : bool :=
  match a, b with
  | ALLOCATE, ALLOCATE | FREE, FREE => true
  | _, _ => false
  end.

(** [operator<<(std::ostream&, const EventType&)]. *)
Definition print_EventType (out : ostream) (rhs : EventType) : ostream :=
  out << (if EventType_eqb rhs ALLOCATE then "ALLOCATE" else "FREE")%string.

(** The anonymous [enum { MEMORY_EVENT, FUNCTION_EVENT }] of
    [MemoryObserverEvent]. *)
Inductive ObserverEventType : Type := MEMORY_EVENT | FUNCTION_EVENT.

(** ** Function frame events *)

Record FunctionFrameEvent : Type := mkFunctionFrameEvent {
  input_ival_addrs : list Z;
  output_ival_addrs : list Z;
  input_val_names : list string;
  output_val_names : list string;
  fn_name : string;
  start_time : Z;
  end_time : Z
}.

(** A value-initialised [FunctionFrameEvent{}]. *)
Definition FunctionFrameEvent_default : FunctionFrameEvent :=
  {| input_ival_addrs := [];
     output_ival_addrs := [];
     input_val_names := [];
     output_val_names := [];
     fn_name := EmptyString;
     start_time := 0;
     end_time := 0 |}.

(** [vector::size()] used as a condition. *)
Definition nonempty {A : Type} (v : list A) : bool :=
  negb (Nat.eqb (List.length v) 0).

(** ** The execution graph, as the observer sees it

    [Node], its schema and its header come from [torch/csrc/jit/ir/ir.h],
    and [FrameNodeId] from [torch/csrc/jit/runtime/interpreter.h]; neither
    file is part of this header.  The observer only reads them, so they are
    parameters: a [Node] is the identity of a graph node (the [Node*] of the
    source, assumed to point at a live node), and the functions are what
    the printers ask of it and of the string utilities. *)
Section Observer.

Variable Node : Type.
Variable FunctionSchema : Type.
(** [Node::maybeSchema()]: the schema of the node, if it has one. *)
Variable maybeSchema : Node -> option FunctionSchema.
(** [canonicalSchemaString(const FunctionSchema&)]. *)
Variable canonicalSchemaString : FunctionSchema -> string.
(** [getHeader] of [jit_log.h], applied to the node. *)
Variable getHeader : Node -> string.
(** [c10::Device]. *)
Variable Device : Type.
(** [c10::Join(delimiter, v)] of [c10/util/StringUtil.h], on a vector of
    names and on a vector of addresses. *)
Variable JoinNames : string -> list string -> string.
Variable JoinAddrs : string -> list Z -> string.

(** [operator<<(std::ostream&, const FunctionFrameEvent&)]. *)
Definition print_FunctionFrameEvent (out : ostream) (rhs : FunctionFrameEvent)
  : ostream :=
  out << "FUNCTION_EVENT: fn_name: "%string << fn_name rhs
      << ", start_time: "%string << string_of_Z (start_time rhs)
      << ", end_time: "%string << string_of_Z (end_time rhs)
      << nl
      << "input_val_names: "%string
      << (if nonempty (input_val_names rhs)
          then JoinNames ", " (input_val_names rhs)
          else "no val names"%string)
      << nl
      << "output_val_names: "%string
      << (if nonempty (output_val_names rhs)
          then JoinNames ", " (output_val_names rhs)
          else "no val names"%string)
      << nl
      << "input_ival_addrs: "%string
      << (if nonempty (input_ival_addrs rhs)
          then JoinAddrs ", " (input_ival_addrs rhs)
          else "no ival addrs"%string)
      << nl
      << "output_ival_addrs: "%string
      << (if nonempty (output_ival_addrs rhs)
          then JoinAddrs ", " (output_ival_addrs rhs)
          else "no ival addrs"%string)
      << nl.

(** [Node::schema()]: throws when the node has no schema. *)
Definition schema (n : Node) : result FunctionSchema :=
  match maybeSchema n with
  | Some s => Ok s
  | None => Throw schema_not_found
  end.

(** [struct FrameNodeId { size_t pc; Node* node; }]. *)
Record FrameNodeId : Type := mkFrameNodeId {
  pc : Z;
  node : Node
}.

(** ** Memory events *)

Record MemoryEvent : Type := mkMemoryEvent {
  ts : Z;
  stack_trace : option string;
  addr : Z;
  size : Z;
  type : EventType;
  frame_node_id : option FrameNodeId
}.

(** [MemoryEvent() = default] with the default member initialisers. *)
Definition MemoryEvent_default : MemoryEvent :=
  {| ts := 0;
     stack_trace := None;
     addr := 0;
     size := 0;
     type := ALLOCATE;
     frame_node_id := None |}.

(** The six-argument constructor; [frame_nodeid] defaults to
    [c10::nullopt]. *)
Definition MemoryEvent_new (ts0 : Z) (stack_trace0 : option string)
  (addr0 : Z) (s : Z) (e : EventType) (frame_nodeid : option FrameNodeId)
  : MemoryEvent :=
  {| ts := ts0;
     stack_trace := stack_trace0;
     addr := addr0;
     size := s;
     type := e;
     frame_node_id := frame_nodeid |}.

(** [operator<<(std::ostream&, const MemoryEvent&)]. *)
Definition print_MemoryEvent (out : ostream) (rhs : MemoryEvent) : ostream :=
  print_EventType (out << "MEMORY_EVENT: type: "%string) (type rhs)
    << ", ts: "%string << string_of_Z (ts rhs)
    << ", size: "%string << string_of_Z (size rhs)
    << ", addr: "%string << string_of_Z (addr rhs)
    << nl.

(** [MemoryEvent::dump(std::ostream& out, bool include_st = false)]. *)
Definition dump (this : MemoryEvent) (out : ostream) (include_st : bool)
  : result ostream :=
  let out := print_MemoryEvent out this in
  out <- (if has_value (frame_node_id this) then
            id <- value (frame_node_id this) ;;
            node_schema <-
              (if has_value (maybeSchema (node id)) then
                 s <- schema (node id) ;;
                 Ok (canonicalSchemaString s)
               else Ok "no schema"%string) ;;
            Ok (out << ", pc: "%string << string_of_Z (pc id) << nl
                    << ", node_schema: "%string << node_schema << nl
                    << ", node_header: "%string << getHeader (node id) << nl)
          else Ok out) ;;
  if include_st && has_value (stack_trace this) then
    st <- value (stack_trace this) ;;
    Ok (out << ", stack trace: "%string << st << nl)
  else Ok out.

(** ** Observer events *)

(** [MemoryObserverEvent]: the tag and both payloads, side by side. *)
Record MemoryObserverEvent : Type := mkMemoryObserverEvent {
  event_type : ObserverEventType;   (* the member [type] *)
  mem_event : MemoryEvent;
  function_event : FunctionFrameEvent
}.

(** [MemoryObserverEvent() = default]. *)
Definition MemoryObserverEvent_default : MemoryObserverEvent :=
  {| event_type := MEMORY_EVENT;
     mem_event := MemoryEvent_default;
     function_event := FunctionFrameEvent_default |}.

(** [operator<<(std::ostream&, const MemoryObserverEvent&)]. *)
Definition print_MemoryObserverEvent (out : ostream)
  (evt : MemoryObserverEvent) : ostream :=
  match event_type evt with
  | MEMORY_EVENT => print_MemoryEvent out (mem_event evt) << nl
  | FUNCTION_EVENT => print_FunctionFrameEvent out (function_event evt) << nl
  end.

(** ** The thread-local collector state *)

Record MemoryObserverThreadLocalState : Type := mkState {
  handle : Z;                              (* at::CallbackHandle *)
  stack : list (option (list string));
  events : list MemoryObserverEvent
}.

(** The default member initialisers: [handle = 0], [stack{}], no events. *)
Definition MemoryObserverThreadLocalState_new : MemoryObserverThreadLocalState :=
  {| handle := 0; stack := []; events := [] |}.

(** [void callbackHandle(at::CallbackHandle handle)]. *)
Definition set_callbackHandle (this : MemoryObserverThreadLocalState)
  (h : Z) : MemoryObserverThreadLocalState :=
  {| handle := h; stack := stack this; events := events this |}.

(** [at::CallbackHandle callbackHandle() const]. *)
Definition callbackHandle (this : MemoryObserverThreadLocalState) : Z :=
  handle this.

(** [bool hasCallbackHandle() const { return handle > 0; }]. *)
Definition hasCallbackHandle (this : MemoryObserverThreadLocalState) : bool :=
  handle this >? 0.

(** [bool memoryProfilingEnabled() const override { return true; }]. *)
Definition memoryProfilingEnabled (this : MemoryObserverThreadLocalState)
  : bool := true.

(** ** The allocator's callback registry *)

(** Modelled from the spec: the registration capability that the observer
    consumes from the allocator (section 6, register(callback) -> handle and
    unregister(handle)); it is implemented outside this header.  The
    registry holds the live registrations of the observer, oldest first, and
    hands out fresh handles counting up from 1.  Removing a handle that is
    not live is an error of the caller. *)
Record Allocator : Type := mkAllocator {
  registrations : list Z;
  next_handle : Z
}.

Definition Allocator_init : Allocator :=
  {| registrations := []; next_handle := 1 |}.

Definition register (a : Allocator) : Z * Allocator :=
  (next_handle a,
   {| registrations := registrations a ++ [next_handle a];
      next_handle := next_handle a + 1 |}).

Definition unregister (h : Z) (a : Allocator) : result Allocator :=
  if existsb (Z.eqb h) (registrations a) then
    Ok {| registrations := filter (fun x => negb (x =? h)) (registrations a);
          next_handle := next_handle a |}
  else Throw callback_not_found.

(** ** Recording a callback *)

(** Modelled from the spec: what the reporting callback reads from its
    surroundings when it runs (sections 4.2 and 6); the interpreter and the
    stack walker are outside this header.  It reads the system clock, the
    frame and node that are executing (absent outside any frame, or when
    the lookup fails), and the captured stack trace (absent unless stack
    capture is on). *)
Record Context : Type := mkContext {
  clock_us : Z;
  current_frame : option FrameNodeId;
  captured_stack : option string
}.

(** Modelled from the spec: the body of
    [MemoryObserverThreadLocalState::reportMemoryUsage], which this header
    only declares (section 4.3, on_report): the kind of the event is decided
    by the sign of [alloc_size], the timestamp is captured, the current frame
    is attached when there is one, and one [MemoryEvent] is appended to the
    log. *)
Definition recorded_event (ctx : Context) (ptr alloc_size : Z)
  : MemoryObserverEvent :=
  {| event_type := MEMORY_EVENT;
     mem_event :=
       MemoryEvent_new (timeSinceEpoch (clock_us ctx)) (captured_stack ctx)
         ptr alloc_size
         (if alloc_size <? 0 then FREE else ALLOCATE)
         (current_frame ctx);
     function_event := FunctionFrameEvent_default |}.

(** Modelled from the spec: [reportMemoryUsage] appends the event to the
    log and touches nothing else; the running totals and the device are
    not recorded. *)
Definition reportMemoryUsage (ctx : Context)
  (this : MemoryObserverThreadLocalState)
  (ptr alloc_size total_allocated total_reserved : Z) (device : Device)
  : MemoryObserverThreadLocalState :=
  {| handle := handle this;
     stack := stack this;
     events := events this ++ [recorded_event ctx ptr alloc_size] |}.

(** ** The observer and the allocator together *)

(** The state that the life cycle functions act on: the collector of the
    observing thread and the registry of the allocator. *)
Record System : Type := mkSystem {
  collector : MemoryObserverThreadLocalState;
  allocator : Allocator
}.

(** Nothing has been enabled yet. *)
Definition System_init : System :=
  {| collector := MemoryObserverThreadLocalState_new;
     allocator := Allocator_init |}.

(** Modelled from the spec: [enableMemoryObserver], which this header only
    declares (section 4.4): while observation is enabled the call does
    nothing; otherwise it makes a fresh collector state, registers it with
    the allocator and stores the handle it gets. *)
Definition enableMemoryObserver (sys : System) : System :=
  if hasCallbackHandle (collector sys) then sys
  else
    let (h, a) := register (allocator sys) in
    {| collector := set_callbackHandle MemoryObserverThreadLocalState_new h;
       allocator := a |}.

(** Modelled from the spec: the log is moved out of the collector
    (section 3, "after drain, the Collector's log is empty"); the log left
    behind is empty. *)
Definition take_events (this : MemoryObserverThreadLocalState)
  : list MemoryObserverEvent * MemoryObserverThreadLocalState :=
  (events this, {| handle := handle this; stack := stack this; events := [] |}).

(** Modelled from the spec: [disableMemoryObserver], which this header only
    declares (section 4.4): it unregisters the callback, which invalidates
    the stored handle, then moves the log out of the collector and returns
    it. *)
Definition disableMemoryObserver (sys : System)
  : result (list MemoryObserverEvent * System) :=
  sys1 <- (if hasCallbackHandle (collector sys) then
             a <- unregister (callbackHandle (collector sys)) (allocator sys) ;;
             Ok {| collector := set_callbackHandle (collector sys) 0;
                   allocator := a |}
           else Ok sys) ;;
  let (log, c) := take_events (collector sys1) in
  Ok (log, {| collector := c; allocator := allocator sys1 |}).

(** ** The allocator at work *)

(** Modelled from the spec: what the allocator does (sections 1 and 6);
    it is outside this header.  It hands out [nbytes] at [ptr], or takes
    them back.  A pointer is the integer it converts to. *)
Inductive AllocatorCall : Type :=
| Allocate (ptr nbytes : Z)
| Free (ptr nbytes : Z).

Definition call_kind (c : AllocatorCall) : EventType :=
  match c with
  | Allocate _ _ => ALLOCATE
  | Free _ _ => FREE
  end.

Definition call_ptr (c : AllocatorCall) : Z :=
  match c with
  | Allocate p _ | Free p _ => p
  end.

(** The signed size that the allocator reports: the size of an allocation,
    and minus the size released by a free. *)
Definition call_alloc_size (c : AllocatorCall) : Z :=
  match c with
  | Allocate _ n => n
  | Free _ n => - n
  end.

(** An allocation has a size that is not negative; a free releases at least
    one byte. *)
Definition call_ok (c : AllocatorCall) : Prop :=
  match c with
  | Allocate _ n => 0 <= n
  | Free _ n => 0 < n
  end.

(** One allocator callback: the call, the running totals and the device
    that the allocator passes, and the surroundings in which it runs. *)
Record Callback : Type := mkCallback {
  cb_call : AllocatorCall;
  cb_total_allocated : Z;
  cb_total_reserved : Z;
  cb_device : Device;
  cb_context : Context
}.

(** Modelled from the spec: the allocator's notification (section 6),
    invoked on every allocate and free: the reporting callback runs once
    for every live registration, on the collector of the thread. *)
Definition notify (sys : System) (cb : Callback) : System :=
  {| collector :=
       fold_left
         (fun this _ =>
            reportMemoryUsage (cb_context cb) this
              (call_ptr (cb_call cb)) (call_alloc_size (cb_call cb))
              (cb_total_allocated cb) (cb_total_reserved cb) (cb_device cb))
         (registrations (allocator sys)) (collector sys);
     allocator := allocator sys |}.

(** The event that one registration records for a callback. *)
Definition recorded (cb : Callback) : MemoryObserverEvent :=
  recorded_event (cb_context cb) (call_ptr (cb_call cb))
    (call_alloc_size (cb_call cb)).

(** An observation session: enable, the callbacks in order, disable. *)
Definition session (sys : System) (cbs : list Callback)
  : result (list MemoryObserverEvent * System) :=
  disableMemoryObserver (fold_left notify cbs (enableMemoryObserver sys)).

(** The operations on the system, and the states they lead to. *)
Inductive Operation : Type :=
| Enable
| Disable
| Notify (cb : Callback).

Definition run (sys : System) (op : Operation) : result System :=
  match op with
  | Enable => Ok (enableMemoryObserver sys)
  | Disable => r <- disableMemoryObserver sys ;; Ok (snd r)
  | Notify cb => Ok (notify sys cb)
  end.

Inductive reachable : System -> Prop :=
| reachable_init : reachable System_init
| reachable_run sys op sys' :
    reachable sys -> run sys op = Ok sys' -> reachable sys'.

(** The invariant of the reachable states: handles are positive, an enabled
    observer has its one registration live, and a disabled one has none and
    an empty log. *)
Definition consistent (sys : System) : Prop :=
  0 < next_handle (allocator sys) /\
  if hasCallbackHandle (collector sys)
  then registrations (allocator sys) = [callbackHandle (collector sys)]
  else registrations (allocator sys) = [] /\ events (collector sys) = [].

(** What [operator<<] writes for a [MemoryEvent], up to the final line
    feed. *)
Definition memory_line (rhs : MemoryEvent) : string :=
  ("MEMORY_EVENT: type: "
   ++ (if EventType_eqb (type rhs) ALLOCATE then "ALLOCATE" else "FREE")
   ++ ", ts: " ++ string_of_Z (ts rhs)
   ++ ", size: " ++ string_of_Z (size rhs)
   ++ ", addr: " ++ string_of_Z (addr rhs))%string.

(** Running a sequence of operations, stopping at the first error. *)
Fixpoint run_all (sys : System) (ops : list Operation) : result System :=
  match ops with
  | [] => Ok sys
  | op :: rest => sys' <- run sys op ;; run_all sys' rest
  end.

(** The event [e] is the record of the callback [cb]: a memory event of the
    kind of the call, for its address, stamped with the clock of the
    callback. *)
Definition records (cb : Callback) (e : MemoryObserverEvent) : Prop :=
  event_type e = MEMORY_EVENT /\
  type (mem_event e) = call_kind (cb_call cb) /\
  addr (mem_event e) = call_ptr (cb_call cb) /\
  ts (mem_event e) = clock_us (cb_context cb).

(** The event [e] is what the log holds for the callback [cb]: a memory
    event for the address of the call, stamped with the clock of the
    callback, and of the kind of the call unless the call is a free of no
    bytes. *)
Definition logged (cb : Callback) (e : MemoryObserverEvent) : Prop :=
  event_type e = MEMORY_EVENT /\
  addr (mem_event e) = call_ptr (cb_call cb) /\
  ts (mem_event e) = clock_us (cb_context cb) /\
  (call_ok (cb_call cb) -> type (mem_event e) = call_kind (cb_call cb)).

(** The event [e] carries the frame in which the callback [cb] ran: that
    very frame and node when there is one, and none when there is none. *)
Definition correlated (cb : Callback) (e : MemoryObserverEvent) : Prop :=
  (forall id, current_frame (cb_context cb) = Some id ->
              frame_node_id (mem_event e) = Some id) /\
  (current_frame (cb_context cb) = None ->
   frame_node_id (mem_event e) = None).

(** * Properties of the event model *)

(** ** Rendering *)

Lemma dump_returns (this : MemoryEvent) (out : ostream) (include_st : bool) :
  exists out', dump this out include_st = Ok out'.
Proof.
  unfold dump, schema.
  destruct (frame_node_id this) as [id|]; cbn [has_value value bind].
  - destruct (maybeSchema (node id)) as [s|]; cbn [has_value bind];
      destruct include_st, (stack_trace this);
      cbn [has_value value bind andb]; eexists; reflexivity.
  - destruct include_st, (stack_trace this);
      cbn [has_value value bind andb]; eexists; reflexivity.
Qed.

Lemma dump_frame_part (this : MemoryEvent) (out : ostream) (id : FrameNodeId) :
  frame_node_id this = Some id ->
  dump this out false =
  Ok (print_MemoryEvent out this
        << ", pc: "%string << string_of_Z (pc id) << nl
        << ", node_schema: "%string
        << match maybeSchema (node id) with
           | Some s => canonicalSchemaString s
           | None => "no schema"%string
           end << nl
        << ", node_header: "%string << getHeader (node id) << nl).
Proof.
  intros Hid. unfold dump, schema. rewrite Hid.
  cbn [has_value value bind].
  destruct (maybeSchema (node id)); reflexivity.
Qed.

Lemma dump_stack_part (this : MemoryEvent) (out : ostream) (include_st : bool) :
  dump this out include_st =
  body <- dump this out false ;;
  match include_st, stack_trace this with
  | true, Some st => Ok (body << ", stack trace: "%string << st << nl)
  | _, _ => Ok body
  end.
Proof.
  unfold dump, schema.
  destruct (frame_node_id this) as [id|]; cbn [has_value value bind].
  - destruct (maybeSchema (node id)); cbn [has_value bind];
      destruct include_st, (stack_trace this); reflexivity.
  - destruct include_st, (stack_trace this); reflexivity.
Qed.

(** C7 (as amended).  [MemoryEvent::dump] never throws, whatever optional
    fields the event lacks, and what it writes is this.  Without stack
    traces, an event without a frame gives the line of [operator<<] and
    nothing more; an event with a frame gives that line, the position, the
    schema line, which reads "no schema" when the node has no schema, and
    the header of the node.  When the event has no stack trace, [dump] with
    stack traces writes the same text as without: nothing is printed in
    place of the trace.  When it has one and [include_st] is set, the
    trace follows the rest of the output. *)
Theorem dump_never_throws (this : MemoryEvent) (out : ostream)
  (include_st : bool) :
  (exists out', dump this out include_st = Ok out') /\
  (frame_node_id this = None ->
     dump this out false = Ok (print_MemoryEvent out this)) /\
  (forall id,
     frame_node_id this = Some id ->
     dump this out false =
     Ok (print_MemoryEvent out this
           << ", pc: "%string << string_of_Z (pc id) << nl
           << ", node_schema: "%string
           << match maybeSchema (node id) with
              | Some s => canonicalSchemaString s
              | None => "no schema"%string
              end << nl
           << ", node_header: "%string << getHeader (node id) << nl)) /\
  (stack_trace this = None ->
     dump this out include_st = dump this out false) /\
  (forall st body,
     stack_trace this = Some st -> dump this out false = Ok body ->
     dump this out true = Ok (body << ", stack trace: "%string << st << nl)).
Proof.
  split; [apply dump_returns|].
  split.
  { intros Hid. unfold dump. rewrite Hid. reflexivity. }
  split; [apply dump_frame_part|].
  split.
  - intros Hst. rewrite dump_stack_part, Hst.
    destruct (dump this out false); destruct include_st; reflexivity.
  - intros st body Hst Hbody. rewrite dump_stack_part, Hbody, Hst.
    reflexivity.
Qed.

(** C9.  What [operator<<] prints for a [MemoryObserverEvent] depends only
    on the tag and on the member that the tag selects: two events with the
    same tag and the same selected member print the same text, whatever
    their other members are. *)
Theorem print_MemoryObserverEvent_selected (e1 e2 : MemoryObserverEvent)
  (out : ostream) :
  event_type e1 = event_type e2 ->
  (event_type e1 = MEMORY_EVENT -> mem_event e1 = mem_event e2) ->
  (event_type e1 = FUNCTION_EVENT -> function_event e1 = function_event e2) ->
  print_MemoryObserverEvent out e1 = print_MemoryObserverEvent out e2.
Proof.
  intros Htag Hmem Hfun. unfold print_MemoryObserverEvent.
  rewrite <- Htag.
  destruct (event_type e1) eqn:E.
  - rewrite (Hmem eq_refl). reflexivity.
  - rewrite (Hfun eq_refl). reflexivity.
Qed.

(** ** Default construction *)

(** C10.  A default-constructed [MemoryObserverEvent] is tagged
    [MEMORY_EVENT]; its [MemoryEvent] has kind [ALLOCATE], timestamp 0,
    address 0, size 0, no stack trace and no frame.  It is the event that
    the constructor builds for an allocation of 0 bytes at address 0 at
    time 0. *)
Theorem MemoryObserverEvent_default_fields :
  let d := MemoryObserverEvent_default in
  event_type d = MEMORY_EVENT /\
  type (mem_event d) = ALLOCATE /\
  ts (mem_event d) = 0 /\
  addr (mem_event d) = 0 /\
  size (mem_event d) = 0 /\
  stack_trace (mem_event d) = None /\
  frame_node_id (mem_event d) = None /\
  mem_event d = MemoryEvent_new 0 None 0 0 ALLOCATE None.
Proof. cbv zeta. repeat split. Qed.

(** ** The registration handle *)

(** C6.  [hasCallbackHandle] answers true exactly when the stored handle is
    strictly positive; with the handle 0 it answers false, as it does for a
    new collector state. *)
Theorem hasCallbackHandle_positive (this : MemoryObserverThreadLocalState) :
  (hasCallbackHandle this = true <-> 0 < callbackHandle this) /\
  hasCallbackHandle (set_callbackHandle this 0) = false /\
  hasCallbackHandle MemoryObserverThreadLocalState_new = false.
Proof.
  unfold hasCallbackHandle, callbackHandle. split.
  - rewrite Z.gtb_ltb. apply Z.ltb_lt.
  - split; reflexivity.
Qed.

(** * Properties of the life cycle *)

(** ** One step at a time *)

Lemma enable_when_disabled (sys : System) :
  hasCallbackHandle (collector sys) = false ->
  enableMemoryObserver sys =
  {| collector :=
       {| handle := next_handle (allocator sys); stack := []; events := [] |};
     allocator :=
       {| registrations :=
            registrations (allocator sys) ++ [next_handle (allocator sys)];
          next_handle := next_handle (allocator sys) + 1 |} |}.
Proof.
  intros Hoff. unfold enableMemoryObserver. rewrite Hoff. reflexivity.
Qed.

Lemma enable_when_enabled (sys : System) :
  hasCallbackHandle (collector sys) = true -> enableMemoryObserver sys = sys.
Proof.
  intros Hon. unfold enableMemoryObserver. rewrite Hon. reflexivity.
Qed.

Lemma notify_unregistered (sys : System) (cb : Callback) :
  registrations (allocator sys) = [] -> notify sys cb = sys.
Proof.
  intros Hregs. unfold notify. rewrite Hregs. destruct sys; reflexivity.
Qed.

Lemma notify_registered_once (sys : System) (cb : Callback) (h : Z) :
  registrations (allocator sys) = [h] ->
  notify sys cb =
  {| collector :=
       {| handle := handle (collector sys);
          stack := stack (collector sys);
          events := events (collector sys) ++ [recorded cb] |};
     allocator := allocator sys |}.
Proof.
  intros Hregs. unfold notify. rewrite Hregs. reflexivity.
Qed.

Lemma notify_all_registered_once (cbs : list Callback) (sys : System) (h : Z) :
  registrations (allocator sys) = [h] ->
  fold_left notify cbs sys =
  {| collector :=
       {| handle := handle (collector sys);
          stack := stack (collector sys);
          events := events (collector sys) ++ map recorded cbs |};
     allocator := allocator sys |}.
Proof.
  revert sys. induction cbs as [|cb cbs IH]; intros sys Hregs.
  - cbn [fold_left map]. rewrite app_nil_r.
    destruct sys as [[] ?]; reflexivity.
  - cbn [fold_left map].
    rewrite (notify_registered_once _ _ _ Hregs).
    rewrite IH by (cbn [allocator]; exact Hregs).
    cbn [collector allocator handle stack events].
    rewrite <- app_assoc. reflexivity.
Qed.

Lemma unregister_only (h next : Z) :
  unregister h {| registrations := [h]; next_handle := next |} =
  Ok {| registrations := []; next_handle := next |}.
Proof.
  unfold unregister. cbn [registrations next_handle existsb filter].
  rewrite Z.eqb_refl. reflexivity.
Qed.

Lemma disable_when_enabled (sys : System) :
  hasCallbackHandle (collector sys) = true ->
  registrations (allocator sys) = [callbackHandle (collector sys)] ->
  disableMemoryObserver sys =
  Ok (events (collector sys),
      {| collector :=
           {| handle := 0; stack := stack (collector sys); events := [] |};
         allocator :=
           {| registrations := [];
              next_handle := next_handle (allocator sys) |} |}).
Proof.
  intros Hon Hregs. unfold disableMemoryObserver. rewrite Hon.
  destruct sys as [c [regs next]]. cbn [collector allocator] in *.
  cbn [registrations] in Hregs. subst regs.
  rewrite unregister_only. reflexivity.
Qed.

Lemma disable_when_disabled (sys : System) :
  hasCallbackHandle (collector sys) = false ->
  disableMemoryObserver sys =
  Ok (events (collector sys),
      {| collector :=
           {| handle := handle (collector sys);
              stack := stack (collector sys);
              events := [] |};
         allocator := allocator sys |}).
Proof.
  intros Hoff. unfold disableMemoryObserver. rewrite Hoff. reflexivity.
Qed.

Lemma disable_leaves_disabled (sys sys' : System)
  (log : list MemoryObserverEvent) :
  disableMemoryObserver sys = Ok (log, sys') ->
  hasCallbackHandle (collector sys') = false /\ events (collector sys') = [].
Proof.
  unfold disableMemoryObserver.
  destruct (hasCallbackHandle (collector sys)) eqn:Hon.
  - destruct (unregister (callbackHandle (collector sys)) (allocator sys));
      cbn [bind take_events]; intros H; inversion H; subst; clear H.
    split; reflexivity.
  - cbn [bind take_events]. intros H; inversion H; subst; clear H.
    split; [exact Hon | reflexivity].
Qed.

(** ** The invariant *)

Lemma consistent_init : consistent System_init.
Proof. split; [reflexivity | split; reflexivity]. Qed.

Lemma consistent_enable (sys : System) :
  consistent sys -> consistent (enableMemoryObserver sys).
Proof.
  intros [Hpos Hregs].
  destruct (hasCallbackHandle (collector sys)) eqn:Hon.
  - rewrite (enable_when_enabled _ Hon). split; [exact Hpos|].
    rewrite Hon. exact Hregs.
  - rewrite (enable_when_disabled _ Hon). destruct Hregs as [Hregs _].
    unfold consistent, hasCallbackHandle, callbackHandle.
    cbn [collector allocator handle registrations next_handle].
    split; [lia|].
    replace (next_handle (allocator sys) >? 0) with true
      by (symmetry; rewrite Z.gtb_ltb; apply Z.ltb_lt; exact Hpos).
    rewrite Hregs. reflexivity.
Qed.

Lemma consistent_notify (sys : System) (cb : Callback) :
  consistent sys -> consistent (notify sys cb).
Proof.
  intros [Hpos Hregs].
  destruct (hasCallbackHandle (collector sys)) eqn:Hon.
  - rewrite (notify_registered_once _ _ _ Hregs).
    unfold consistent, hasCallbackHandle, callbackHandle in *.
    cbn [collector allocator handle]. rewrite Hon. split; assumption.
  - destruct Hregs as [Hregs Hlog].
    rewrite (notify_unregistered _ _ Hregs).
    split; [exact Hpos|]. rewrite Hon. split; assumption.
Qed.

Lemma consistent_disable (sys sys' : System)
  (log : list MemoryObserverEvent) :
  consistent sys -> disableMemoryObserver sys = Ok (log, sys') ->
  consistent sys'.
Proof.
  intros [Hpos Hregs] Hdis.
  destruct (hasCallbackHandle (collector sys)) eqn:Hon.
  - rewrite (disable_when_enabled _ Hon Hregs) in Hdis.
    inversion Hdis; subst; clear Hdis.
    split; [exact Hpos | split; reflexivity].
  - rewrite (disable_when_disabled _ Hon) in Hdis.
    inversion Hdis; subst; clear Hdis. destruct Hregs as [Hregs _].
    unfold consistent, hasCallbackHandle in *.
    cbn [collector allocator handle events]. rewrite Hon.
    split; [exact Hpos | split; [exact Hregs | reflexivity]].
Qed.

Lemma consistent_run (sys sys' : System) (op : Operation) :
  consistent sys -> run sys op = Ok sys' -> consistent sys'.
Proof.
  intros Hc Hrun. destruct op as [| |cb]; cbn [run] in Hrun.
  - inversion Hrun; subst. apply consistent_enable, Hc.
  - destruct (disableMemoryObserver sys) as [[log s]|e] eqn:Hdis;
      cbn [bind snd] in Hrun; inversion Hrun; subst.
    eapply consistent_disable; eassumption.
  - inversion Hrun; subst. apply consistent_notify, Hc.
Qed.

Lemma reachable_consistent (sys : System) : reachable sys -> consistent sys.
Proof.
  induction 1 as [|sys op sys' _ IH Hrun].
  - apply consistent_init.
  - eapply consistent_run; eassumption.
Qed.

Lemma reachable_notify_all (cbs : list Callback) (sys : System) :
  reachable sys -> reachable (fold_left notify cbs sys).
Proof.
  revert sys. induction cbs as [|cb cbs IH]; intros sys Hreach.
  - exact Hreach.
  - cbn [fold_left]. apply IH.
    apply (reachable_run sys (Notify cb)); [exact Hreach | reflexivity].
Qed.

(** ** Sessions *)

(** A session begun while observation is off returns the records of its
    callbacks, in order, and leaves observation off with an empty log. *)
Lemma session_log (sys : System) (cbs : list Callback) :
  consistent sys -> hasCallbackHandle (collector sys) = false ->
  session sys cbs =
  Ok (map recorded cbs,
      {| collector := {| handle := 0; stack := []; events := [] |};
         allocator :=
           {| registrations := [];
              next_handle := next_handle (allocator sys) + 1 |} |}).
Proof.
  intros Hc Hoff. unfold session.
  pose proof (consistent_enable _ Hc) as Hc1.
  rewrite (enable_when_disabled _ Hoff) in *.
  destruct Hc as [Hpos Hc]. rewrite Hoff in Hc. destruct Hc as [Hregs _].
  rewrite Hregs in *. cbn [app] in *.
  erewrite notify_all_registered_once by reflexivity.
  cbn [collector allocator handle stack events app].
  rewrite disable_when_enabled.
  - reflexivity.
  - unfold hasCallbackHandle. cbn [collector handle].
    rewrite Z.gtb_ltb. apply Z.ltb_lt. exact Hpos.
  - reflexivity.
Qed.

Lemma recorded_records (cb : Callback) :
  call_ok (cb_call cb) -> records cb (recorded cb).
Proof.
  intros Hok. unfold records, recorded, recorded_event, MemoryEvent_new.
  cbn [event_type mem_event type addr ts]. repeat split.
  destruct (cb_call cb) as [p n|p n]; cbn [call_ok call_alloc_size call_kind] in *.
  - destruct (Z.ltb_spec n 0); [lia | reflexivity].
  - destruct (Z.ltb_spec (- n) 0); [reflexivity | lia].
Qed.

Lemma recorded_logged (cb : Callback) : logged cb (recorded cb).
Proof.
  unfold logged. repeat split.
  intros Hok. apply (recorded_records cb Hok).
Qed.

Lemma recorded_correlated (cb : Callback) : correlated cb (recorded cb).
Proof.
  unfold correlated, recorded, recorded_event, MemoryEvent_new.
  cbn [mem_event frame_node_id]. split; [intros id H | intros H]; exact H.
Qed.

Lemma run_init_without_enable (op : Operation) :
  op <> Enable -> run System_init op = Ok System_init.
Proof.
  intros Hop. destruct op as [| |cb]; [congruence | reflexivity |].
  cbn [run]. rewrite notify_unregistered; reflexivity.
Qed.

Lemma run_all_init_without_enable (ops : list Operation) :
  Forall (fun op => op <> Enable) ops ->
  run_all System_init ops = Ok System_init.
Proof.
  induction 1 as [|op ops Hop _ IH]; [reflexivity|].
  cbn [run_all]. rewrite (run_init_without_enable _ Hop). exact IH.
Qed.


(** C2.  As long as [enableMemoryObserver] has never been called, whatever
    else has happened, [disableMemoryObserver] returns an empty log without
    error and leaves the system in its initial state. *)
Theorem disable_without_enable (ops : list Operation) :
  Forall (fun op => op <> Enable) ops ->
  exists sys,
    run_all System_init ops = Ok sys /\
    disableMemoryObserver sys = Ok ([], System_init).
Proof.
  intros Hops. exists System_init.
  split; [apply run_all_init_without_enable, Hops | reflexivity].
Qed.

(** C3.  In every reachable state in which observation is enabled,
    [enableMemoryObserver] changes nothing: the stored handle is the one
    from before, and the allocator still has that one registration and no
    other. *)
Theorem enable_idempotent (sys : System) :
  reachable sys ->
  hasCallbackHandle (collector sys) = true ->
  let sys' := enableMemoryObserver sys in
  sys' = sys /\
  callbackHandle (collector sys') = callbackHandle (collector sys) /\
  registrations (allocator sys') = [callbackHandle (collector sys)].
Proof.
  intros Hreach Hon sys'. subst sys'.
  rewrite (enable_when_enabled _ Hon).
  destruct (reachable_consistent _ Hreach) as [_ Hregs].
  rewrite Hon in Hregs. repeat split. exact Hregs.
Qed.

(** C4.  When [disableMemoryObserver] returns, the log of the collector is
    empty, and it is still empty after the next [enableMemoryObserver]; the
    session that follows (from a reachable state) returns the records of
    its own callbacks and nothing else. *)
Theorem disable_empties_log (sys sys' : System)
  (log : list MemoryObserverEvent) :
  disableMemoryObserver sys = Ok (log, sys') ->
  events (collector sys') = [] /\
  events (collector (enableMemoryObserver sys')) = [] /\
  (reachable sys ->
   forall cbs, exists sys'', session sys' cbs = Ok (map recorded cbs, sys'')).
Proof.
  intros Hdis.
  destruct (disable_leaves_disabled _ _ _ Hdis) as [Hoff Hlog].
  split; [exact Hlog|]. split.
  - rewrite (enable_when_disabled _ Hoff). reflexivity.
  - intros Hreach cbs.
    assert (Hc : consistent sys').
    { eapply consistent_disable; [apply reachable_consistent, Hreach|].
      exact Hdis. }
    rewrite (session_log _ cbs Hc Hoff). eexists; reflexivity.
Qed.

(** C5.  In a session that starts while observation is off, the event
    recorded for a callback that ran while a frame and node were current
    carries exactly that frame and node, and the event recorded for a
    callback that ran outside any frame carries none; the session returns
    without error either way. *)
Theorem session_frame_correlation (sys : System) (cbs : list Callback) :
  reachable sys ->
  hasCallbackHandle (collector sys) = false ->
  exists log sys',
    session sys cbs = Ok (log, sys') /\
    Forall2 correlated cbs log.
Proof.
  intros Hreach Hoff.
  rewrite (session_log _ cbs (reachable_consistent _ Hreach) Hoff).
  eexists; eexists; split; [reflexivity|].
  induction cbs as [|cb cbs IH]; cbn [map]; constructor.
  - apply recorded_correlated.
  - exact IH.
Qed.

(** * More on the printers *)

(** ** Strings *)

Lemma string_app_assoc (a b c : string) :
  ((a ++ b) ++ c = a ++ (b ++ c))%string.
Proof.
  induction a as [|x a IH]; [reflexivity|].
  cbn [append]. rewrite IH. reflexivity.
Qed.

Lemma string_app_cancel_l (a x y : string) :
  (a ++ x = a ++ y)%string -> x = y.
Proof.
  induction a as [|c a IH]; cbn [append]; intros H; [exact H|].
  injection H as H. exact (IH H).
Qed.

Lemma all_chars_occurs (p : ascii -> bool) (c : ascii) (s : string) :
  all_chars p s = true -> p c = false -> occurs c s = false.
Proof.
  intros Hall Hc. induction s as [|x s IH]; [reflexivity|].
  cbn [all_chars occurs] in *. apply andb_true_iff in Hall as [Hx Hs].
  rewrite (IH Hs), orb_false_r.
  destruct (Ascii.eqb_spec x c) as [->|_]; [congruence | reflexivity].
Qed.

Lemma occurs_app (c : ascii) (a b : string) :
  occurs c (a ++ b) = occurs c a || occurs c b.
Proof.
  induction a as [|x a IH]; [reflexivity|].
  cbn [append occurs]. rewrite IH, orb_assoc. reflexivity.
Qed.

(** Two texts that are cut at a separator which occurs in neither head
    have the same head and the same tail. *)
Lemma split_at_separator (p : ascii -> bool) (c : ascii) (a b x y : string) :
  all_chars p a = true -> all_chars p b = true -> p c = false ->
  (a ++ String c x = b ++ String c y)%string -> a = b /\ x = y.
Proof.
  intros Ha Hb Hc. revert b Hb.
  induction a as [|a0 a IH]; intros [|b0 b] Hb H; cbn [append] in H.
  - injection H as H. split; [reflexivity | exact H].
  - injection H as H0 _. cbn [all_chars] in Hb.
    apply andb_true_iff in Hb as [Hb0 _]. congruence.
  - injection H as H0 _. cbn [all_chars] in Ha.
    apply andb_true_iff in Ha as [Ha0 _]. congruence.
  - injection H as H0 H. cbn [all_chars] in Ha, Hb.
    apply andb_true_iff in Ha as [_ Ha].
    apply andb_true_iff in Hb as [_ Hb].
    destruct (IH Ha b Hb H) as [Hab Hxy]. subst. split; reflexivity.
Qed.

Lemma string_of_uint_numeric (d : Decimal.uint) :
  all_chars numeric_char (NilEmpty.string_of_uint d) = true.
Proof. induction d; cbn [NilEmpty.string_of_uint all_chars]; auto. Qed.

Lemma string_of_Z_numeric (z : Z) :
  all_chars numeric_char (string_of_Z z) = true.
Proof.
  unfold string_of_Z, NilZero.string_of_int, NilZero.string_of_uint.
  destruct (Z.to_int z) as [d|d]; destruct d; try reflexivity;
    cbn [all_chars]; rewrite ?string_of_uint_numeric; reflexivity.
Qed.

Lemma to_int_not_nil (z : Z) :
  Z.to_int z <> Decimal.Pos Decimal.Nil /\
  Z.to_int z <> Decimal.Neg Decimal.Nil.
Proof.
  split; intros H; pose proof (DecimalZ.of_to z) as Hz; rewrite H in Hz;
    cbn in Hz; subst z; discriminate H.
Qed.

Lemma string_of_Z_inj (z1 z2 : Z) :
  string_of_Z z1 = string_of_Z z2 -> z1 = z2.
Proof.
  unfold string_of_Z. intros H.
  apply (f_equal NilZero.int_of_string) in H.
  destruct (to_int_not_nil z1) as [Hp1 Hn1].
  destruct (to_int_not_nil z2) as [Hp2 Hn2].
  rewrite !NilZero.isi in H by assumption.
  injection H as H. apply DecimalZ.to_int_inj, H.
Qed.

(** ** The line of a memory event *)

Lemma print_MemoryEvent_line (out : ostream) (rhs : MemoryEvent) :
  print_MemoryEvent out rhs = (out ++ memory_line rhs ++ nl)%string.
Proof.
  unfold print_MemoryEvent, print_EventType, memory_line, put.
  rewrite !string_app_assoc. reflexivity.
Qed.

Lemma memory_line_inj (e1 e2 : MemoryEvent) (t1 t2 : string) :
  (memory_line e1 ++ String newline t1 =
   memory_line e2 ++ String newline t2)%string ->
  type e1 = type e2 /\ ts e1 = ts e2 /\ size e1 = size e2 /\
  addr e1 = addr e2.
Proof.
  unfold memory_line. rewrite !string_app_assoc. intros H.
  apply string_app_cancel_l in H.
  assert (Hkind : type e1 = type e2 /\
    (", ts: " ++ string_of_Z (ts e1) ++ ", size: " ++ string_of_Z (size e1)
       ++ ", addr: " ++ string_of_Z (addr e1) ++ String newline t1 =
     ", ts: " ++ string_of_Z (ts e2) ++ ", size: " ++ string_of_Z (size e2)
       ++ ", addr: " ++ string_of_Z (addr e2) ++ String newline t2)%string).
  { destruct (type e1), (type e2); cbn [EventType_eqb] in H.
    - apply string_app_cancel_l in H. split; [reflexivity | exact H].
    - cbn [append] in H. discriminate H.
    - cbn [append] in H. discriminate H.
    - apply string_app_cancel_l in H. split; [reflexivity | exact H]. }
  destruct Hkind as [Hkind Hrest]. clear H.
  apply string_app_cancel_l in Hrest.
  apply (split_at_separator numeric_char ","%char) in Hrest
    as [Hts Hrest]; try apply string_of_Z_numeric; [|reflexivity].
  apply (string_app_cancel_l " size: ") in Hrest.
  apply (split_at_separator numeric_char ","%char) in Hrest
    as [Hsize Hrest]; try apply string_of_Z_numeric; [|reflexivity].
  apply (string_app_cancel_l " addr: ") in Hrest.
  apply (split_at_separator numeric_char newline) in Hrest
    as [Haddr _]; try apply string_of_Z_numeric; [|reflexivity].
  repeat split; [exact Hkind | | |]; apply string_of_Z_inj; assumption.
Qed.

Lemma memory_line_no_newline (rhs : MemoryEvent) :
  occurs newline (memory_line rhs) = false.
Proof.
  unfold memory_line. rewrite !occurs_app.
  rewrite !(all_chars_occurs numeric_char newline (string_of_Z _))
    by (try apply string_of_Z_numeric; reflexivity).
  destruct (type rhs); reflexivity.
Qed.

Lemma string_app_nil_r (a : string) : (a ++ EmptyString)%string = a.
Proof.
  induction a as [|c a IH]; [reflexivity|].
  cbn [append]. rewrite IH. reflexivity.
Qed.

Lemma print_FunctionFrameEvent_head (out : ostream)
  (rhs : FunctionFrameEvent) :
  exists rest,
    print_FunctionFrameEvent out rhs = (out ++ String "F" rest)%string.
Proof.
  unfold print_FunctionFrameEvent, put. rewrite !string_app_assoc.
  cbn [append]. eexists. reflexivity.
Qed.

Lemma dump_without_frame_body (this : MemoryEvent) (out : ostream) :
  frame_node_id this = None ->
  dump this out false = Ok (print_MemoryEvent out this).
Proof.
  intros Hframe. unfold dump. rewrite Hframe. reflexivity.
Qed.

(** ** What the printers write *)

(** X1.  The two kinds print different texts: from what [operator<<]
    writes for an [EventType] one can tell the kind. *)
Theorem print_EventType_distinct (out : ostream) (a b : EventType) :
  a <> b -> print_EventType out a <> print_EventType out b.
Proof.
  unfold print_EventType, put. intros Hab H.
  apply string_app_cancel_l in H.
  destruct a, b; cbn [EventType_eqb] in H;
    [congruence | discriminate H | discriminate H | congruence].
Qed.

(** X2.  [operator<<] writes the same text for two memory events exactly
    when they have the same kind, timestamp, size and address: the stack
    trace and the frame are not printed, and nothing else is lost. *)
Theorem print_MemoryEvent_eq_iff (out : ostream) (e1 e2 : MemoryEvent) :
  print_MemoryEvent out e1 = print_MemoryEvent out e2 <->
  type e1 = type e2 /\ ts e1 = ts e2 /\ size e1 = size e2 /\
  addr e1 = addr e2.
Proof.
  split.
  - rewrite !print_MemoryEvent_line. intros H.
    apply string_app_cancel_l in H.
    exact (memory_line_inj e1 e2 EmptyString EmptyString H).
  - intros (Hkind & Hts & Hsize & Haddr). unfold print_MemoryEvent.
    rewrite Hkind, Hts, Hsize, Haddr. reflexivity.
Qed.

(** X3.  [operator<<] writes a memory event after what the stream already
    holds, as one line: a text without line feed, then one line feed. *)
Theorem print_MemoryEvent_one_line (out : ostream) (rhs : MemoryEvent) :
  exists line,
    print_MemoryEvent out rhs = (out ++ line ++ nl)%string /\
    occurs newline line = false.
Proof.
  exists (memory_line rhs).
  split; [apply print_MemoryEvent_line | apply memory_line_no_newline].
Qed.

(** X4.  For an event without a frame, [dump] writes exactly what
    [operator<<] writes, unless stack traces are asked for and the event
    has one. *)
Theorem dump_without_frame (this : MemoryEvent) (out : ostream)
  (include_st : bool) :
  frame_node_id this = None ->
  include_st = false \/ stack_trace this = None ->
  dump this out include_st = Ok (print_MemoryEvent out this).
Proof.
  intros Hframe Hst. unfold dump. rewrite Hframe.
  cbn [has_value bind]. destruct Hst as [-> | ->].
  - reflexivity.
  - cbn [has_value]. rewrite andb_false_r. reflexivity.
Qed.

(** X5.  With [include_st] at its default, [false], what [dump] writes
    does not depend on the stack trace of the event. *)
Theorem dump_default_hides_stack_trace (this : MemoryEvent) (out : ostream)
  (st : option string) :
  dump (MemoryEvent_new (ts this) st (addr this) (size this) (type this)
          (frame_node_id this)) out false =
  dump this out false.
Proof. reflexivity. Qed.

(** X6.  For an event with a frame whose node has a schema and with a
    stack trace, [dump] with stack traces writes, in this order: the line
    of [operator<<], the position, the canonical schema string, the header
    of the node, and the stack trace. *)
Theorem dump_full (this : MemoryEvent) (out : ostream) (id : FrameNodeId)
  (s : FunctionSchema) (st : string) :
  frame_node_id this = Some id ->
  maybeSchema (node id) = Some s ->
  stack_trace this = Some st ->
  dump this out true =
  Ok (print_MemoryEvent out this
        << ", pc: "%string << string_of_Z (pc id) << nl
        << ", node_schema: "%string << canonicalSchemaString s << nl
        << ", node_header: "%string << getHeader (node id) << nl
        << ", stack trace: "%string << st << nl).
Proof.
  intros Hframe Hschema Hst.
  rewrite dump_stack_part, (dump_frame_part _ _ _ Hframe), Hschema, Hst.
  reflexivity.
Qed.

(** X7.  Whatever the event and the flag, [dump] returns, and what it
    writes starts with what [operator<<] writes for the event. *)
Theorem dump_extends_print (this : MemoryEvent) (out : ostream)
  (include_st : bool) :
  exists rest,
    dump this out include_st =
    Ok (print_MemoryEvent out this ++ rest)%string.
Proof.
  rewrite dump_stack_part.
  assert (Hbody : exists rest,
            dump this out false =
            Ok (print_MemoryEvent out this ++ rest)%string).
  { destruct (frame_node_id this) as [id|] eqn:Hframe.
    - rewrite (dump_frame_part _ _ _ Hframe). unfold put.
      rewrite !string_app_assoc. eexists. reflexivity.
    - rewrite (dump_without_frame_body _ _ Hframe).
      exists EmptyString. rewrite string_app_nil_r. reflexivity. }
  destruct Hbody as [rest ->]. cbn [bind].
  destruct include_st; [destruct (stack_trace this) as [st|]|];
    try (eexists; reflexivity).
  unfold put. rewrite !string_app_assoc. eexists. reflexivity.
Qed.

(** X8.  For a frame event whose four vectors are empty, [operator<<]
    writes the name and the two times, then "no val names" twice and
    "no ival addrs" twice; [c10::Join] has no part in the text. *)
Theorem print_FunctionFrameEvent_empty (out : ostream)
  (rhs : FunctionFrameEvent) :
  input_val_names rhs = [] -> output_val_names rhs = [] ->
  input_ival_addrs rhs = [] -> output_ival_addrs rhs = [] ->
  print_FunctionFrameEvent out rhs =
  (out ++ "FUNCTION_EVENT: fn_name: " ++ fn_name rhs
       ++ ", start_time: " ++ string_of_Z (start_time rhs)
       ++ ", end_time: " ++ string_of_Z (end_time rhs) ++ nl
       ++ "input_val_names: no val names" ++ nl
       ++ "output_val_names: no val names" ++ nl
       ++ "input_ival_addrs: no ival addrs" ++ nl
       ++ "output_ival_addrs: no ival addrs" ++ nl)%string.
Proof.
  intros H1 H2 H3 H4. unfold print_FunctionFrameEvent, put.
  rewrite H1, H2, H3, H4. cbn [nonempty List.length Nat.eqb negb].
  rewrite !string_app_assoc. reflexivity.
Qed.

(** X9.  From what [operator<<] writes for two observer events one can
    tell their tags apart; and two events tagged [MEMORY_EVENT] that print
    the same text have memory events of the same kind, timestamp, size
    and address. *)
Theorem print_MemoryObserverEvent_reveals (out : ostream)
  (e1 e2 : MemoryObserverEvent) :
  print_MemoryObserverEvent out e1 = print_MemoryObserverEvent out e2 ->
  event_type e1 = event_type e2 /\
  (event_type e1 = MEMORY_EVENT ->
   type (mem_event e1) = type (mem_event e2) /\
   ts (mem_event e1) = ts (mem_event e2) /\
   size (mem_event e1) = size (mem_event e2) /\
   addr (mem_event e1) = addr (mem_event e2)).
Proof.
  unfold print_MemoryObserverEvent.
  destruct (event_type e1), (event_type e2); intros H.
  - split; [reflexivity|]. intros _.
    rewrite !print_MemoryEvent_line in H. unfold put in H.
    rewrite !string_app_assoc in H. apply string_app_cancel_l in H.
    exact (memory_line_inj _ _ nl nl H).
  - exfalso.
    destruct (print_FunctionFrameEvent_head out (function_event e2))
      as [rest Hrest].
    rewrite print_MemoryEvent_line, Hrest in H. unfold put in H.
    rewrite !string_app_assoc in H. apply string_app_cancel_l in H.
    unfold memory_line in H. cbn [append] in H. discriminate H.
  - exfalso.
    destruct (print_FunctionFrameEvent_head out (function_event e1))
      as [rest Hrest].
    rewrite print_MemoryEvent_line, Hrest in H. unfold put in H.
    rewrite !string_app_assoc in H. apply string_app_cancel_l in H.
    unfold memory_line in H. cbn [append] in H. discriminate H.
  - split; [reflexivity | discriminate].
Qed.

(** ** The handle of the collector *)

(** X10.  After [callbackHandle(h)], [callbackHandle()] returns [h],
    [hasCallbackHandle()] holds exactly when [h] is positive, the log and
    the stack are what they were, and of two stores the later one wins. *)
Theorem callbackHandle_set_get (this : MemoryObserverThreadLocalState)
  (h h' : Z) :
  callbackHandle (set_callbackHandle this h) = h /\
  (hasCallbackHandle (set_callbackHandle this h) = true <-> 0 < h) /\
  events (set_callbackHandle this h) = events this /\
  stack (set_callbackHandle this h) = stack this /\
  set_callbackHandle (set_callbackHandle this h) h' =
  set_callbackHandle this h'.
Proof.
  split; [reflexivity|]. split.
  - unfold hasCallbackHandle, set_callbackHandle. cbn [handle].
    rewrite Z.gtb_ltb. apply Z.ltb_lt.
  - repeat split.
Qed.

End Observer.

Arguments mkFrameNodeId {Node} pc node.
Arguments MemoryEvent_new {Node} ts0 stack_trace0 addr0 s e frame_nodeid.
Arguments stack_trace {Node} m.
Arguments frame_node_id {Node} m.
Arguments mkMemoryObserverEvent {Node} event_type mem_event function_event.
Arguments function_event {Node} m.
Arguments print_MemoryObserverEvent {Node} JoinNames JoinAddrs out evt.
Arguments mkState {Node} handle stack events.
Arguments hasCallbackHandle {Node} this.
Arguments callbackHandle {Node} this.
Arguments events {Node} m.
Arguments mkContext {Node} clock_us current_frame captured_stack.
Arguments collector {Node} s.
Arguments allocator {Node} s.
Arguments enableMemoryObserver {Node} sys.
Arguments disableMemoryObserver {Node} sys.
Arguments mkCallback {Node Device} cb_call cb_total_allocated
  cb_total_reserved cb_device cb_context.
Arguments recorded {Node Device} cb.
Arguments records {Node Device} cb e.
Arguments logged {Node Device} cb e.
Arguments correlated {Node Device} cb e.
Arguments session {Node Device} sys cbs.
Arguments Notify {Node Device} cb.
Arguments run_all {Node Device} sys ops.

(** * A small graph to run the observer on *)

(** Two nodes: a call of an operator, which has a schema, and a constant,
    which has none. *)
Inductive DemoNode : Type := relu_node | constant_node.

Definition demo_maybeSchema (n : DemoNode) : option string :=
  match n with
  | relu_node => Some "aten::relu(Tensor self) -> Tensor"%string
  | constant_node => None
  end.

Definition demo_canonicalSchemaString (s : string) : string := s.

Definition demo_getHeader (n : DemoNode) : string :=
  match n with
  | relu_node => "%y : Tensor = aten::relu(%x)"%string
  | constant_node => "%c : int = prim::Constant[value=1]()"%string
  end.

Inductive DemoDevice : Type := CPU.

Fixpoint demo_Join {A : Type} (show : A -> string) (delimiter : string)
  (v : list A) : string :=
  match v with
  | [] => EmptyString
  | [x] => show x
  | x :: rest => (show x ++ delimiter ++ demo_Join show delimiter rest)%string
  end.

Definition demo_print : ostream -> MemoryObserverEvent DemoNode -> ostream :=
  print_MemoryObserverEvent (demo_Join (fun s => s)) (demo_Join string_of_Z).

Definition demo_dump : MemoryEvent DemoNode -> ostream -> bool -> result ostream :=
  dump DemoNode string demo_maybeSchema demo_canonicalSchemaString
    demo_getHeader.

(** An allocation of 64 bytes at 0x1000 made by the constant, without a
    stack trace. *)
Definition demo_event : MemoryEvent DemoNode :=
  MemoryEvent_new 10 None 4096 64 ALLOCATE
    (Some (mkFrameNodeId 3 constant_node)).

(** Thread A allocates 64 bytes at 0x1000 inside the operator call, then
    frees them outside any frame. *)
Definition demo_callbacks : list (Callback DemoNode DemoDevice) :=
  [ mkCallback (Allocate 4096 64) 64 0 CPU
      (mkContext 10 (Some (mkFrameNodeId 3 relu_node)) None);
    mkCallback (Free 4096 64) 0 0 CPU (mkContext 11 None None) ].

Lemma demo_enabled_reachable :
  reachable DemoNode DemoDevice (enableMemoryObserver (System_init DemoNode)).
Proof.
  apply (reachable_run _ _ (System_init DemoNode) (Enable _ _)).
  - apply reachable_init.
  - reflexivity.
Defined.

(** * The claims at concrete inputs *)

(** C7 as stated fails: for an event without a stack trace, [dump] with
    stack traces requested prints no "no stack trace available". *)
Lemma dump_prints_no_stack_trace_placeholder :
  stack_trace demo_event = None /\
  exists out,
    demo_dump demo_event EmptyString true = Ok out /\
    contains "no stack trace available" out = false.
Proof.
  split; [reflexivity|]. eexists. split; [reflexivity|]. vm_compute.
  reflexivity.
Qed.

Lemma dump_never_throws_witness :
  demo_dump demo_event EmptyString true =
  Ok (print_MemoryEvent DemoNode EmptyString demo_event
        << ", pc: "%string << "3"%string << nl
        << ", node_schema: "%string << "no schema"%string << nl
        << ", node_header: "%string
        << "%c : int = prim::Constant[value=1]()"%string << nl).
Proof.
  pose proof (dump_never_throws DemoNode string demo_maybeSchema
                demo_canonicalSchemaString demo_getHeader
                demo_event EmptyString true)
    as (_ & _ & Hframe & Hnone & _).
  unfold demo_dump. rewrite (Hnone eq_refl).
  exact (Hframe (mkFrameNodeId 3 constant_node) eq_refl).
Defined.

Lemma print_MemoryObserverEvent_selected_witness :
  let e1 := mkMemoryObserverEvent MEMORY_EVENT demo_event
              FunctionFrameEvent_default in
  let e2 := mkMemoryObserverEvent MEMORY_EVENT demo_event
              (mkFunctionFrameEvent [4096] [] ["x"%string] [] "forward" 5 9) in
  function_event e1 <> function_event e2 /\
  demo_print EmptyString e1 = demo_print EmptyString e2.
Proof.
  cbv zeta. split; [discriminate|].
  apply (print_MemoryObserverEvent_selected DemoNode).
  - reflexivity.
  - reflexivity.
  - intros H. discriminate H.
Defined.

Lemma hasCallbackHandle_positive_witness :
  hasCallbackHandle (mkState (Node := DemoNode) 7 [] []) = true.
Proof.
  apply (proj2 (proj1 (hasCallbackHandle_positive DemoNode
                         (mkState 7 [] [])))).
  reflexivity.
Defined.

(** A free of no bytes at 0x1000. *)
Definition demo_zero_free : Callback DemoNode DemoDevice :=
  mkCallback (Free 4096 0) 0 0 CPU (mkContext 11 None None).



Lemma disable_without_enable_witness :
  exists sys,
    run_all (System_init DemoNode)
      (Disable DemoNode DemoDevice :: map Notify demo_callbacks) = Ok sys /\
    disableMemoryObserver sys = Ok ([], System_init DemoNode).
Proof.
  apply (disable_without_enable DemoNode DemoDevice).
  repeat constructor; discriminate.
Defined.

Lemma enable_idempotent_witness :
  let sys := enableMemoryObserver (System_init DemoNode) in
  let sys' := enableMemoryObserver sys in
  sys' = sys /\
  callbackHandle (collector sys') = callbackHandle (collector sys) /\
  registrations (allocator sys') = [callbackHandle (collector sys)].
Proof.
  intros sys.
  apply (enable_idempotent DemoNode DemoDevice sys).
  - apply demo_enabled_reachable.
  - reflexivity.
Defined.

Lemma disable_empties_log_witness :
  let sys := fold_left (notify DemoNode DemoDevice) demo_callbacks
               (enableMemoryObserver (System_init DemoNode)) in
  exists log sys',
    disableMemoryObserver sys = Ok (log, sys') /\
    List.length log = 2%nat /\
    events (collector sys') = [] /\
    events (collector (enableMemoryObserver sys')) = [] /\
    exists sys'',
      session sys' demo_callbacks = Ok (map recorded demo_callbacks, sys'').
Proof.
  intros sys. eexists. eexists. split; [reflexivity|].
  split; [reflexivity|].
  repeat split;
    try apply (disable_empties_log DemoNode DemoDevice sys _ _ eq_refl).
  apply reachable_notify_all, demo_enabled_reachable.
Defined.

Lemma session_frame_correlation_witness :
  exists log sys',
    session (System_init DemoNode) demo_callbacks = Ok (log, sys') /\
    Forall2 correlated demo_callbacks log.
Proof.
  apply (session_frame_correlation DemoNode DemoDevice
           (System_init DemoNode) demo_callbacks).
  - apply reachable_init.
  - reflexivity.
Defined.

(** * More on the printers, at concrete inputs *)

(** X11.  [operator<<] for a frame event hands a vector to [c10::Join]
    only when the vector is not empty, and always with the delimiter
    ", ": two implementations of [Join] that agree there give the same
    text. *)
Theorem print_FunctionFrameEvent_Join_nonempty
  (JoinNames1 JoinNames2 : string -> list string -> string)
  (JoinAddrs1 JoinAddrs2 : string -> list Z -> string)
  (out : ostream) (rhs : FunctionFrameEvent) :
  (forall v, v <> [] -> JoinNames1 ", "%string v = JoinNames2 ", "%string v) ->
  (forall v, v <> [] -> JoinAddrs1 ", "%string v = JoinAddrs2 ", "%string v) ->
  print_FunctionFrameEvent JoinNames1 JoinAddrs1 out rhs =
  print_FunctionFrameEvent JoinNames2 JoinAddrs2 out rhs.
Proof.
  intros Hnames Haddrs. unfold print_FunctionFrameEvent.
  assert (Hn : forall v,
            (if nonempty v then JoinNames1 ", "%string v
             else "no val names"%string) =
            (if nonempty v then JoinNames2 ", "%string v
             else "no val names"%string)).
  { intros [|x v]; [reflexivity|]. cbn [nonempty List.length Nat.eqb negb].
    apply Hnames. discriminate. }
  assert (Ha : forall v,
            (if nonempty v then JoinAddrs1 ", "%string v
             else "no ival addrs"%string) =
            (if nonempty v then JoinAddrs2 ", "%string v
             else "no ival addrs"%string)).
  { intros [|x v]; [reflexivity|]. cbn [nonempty List.length Nat.eqb negb].
    apply Haddrs. discriminate. }
  rewrite !Hn, !Ha. reflexivity.
Qed.

(** The event of [demo_event] as the operator call recorded it, with a
    stack trace. *)
Definition demo_traced_event : MemoryEvent DemoNode :=
  MemoryEvent_new 10 (Some "forward.py:12"%string) 4096 64 ALLOCATE
    (Some (mkFrameNodeId 7 relu_node)).

(** The same allocation, seen outside any frame. *)
Definition demo_bare_event : MemoryEvent DemoNode :=
  MemoryEvent_new 10 (Some "forward.py:12"%string) 4096 64 ALLOCATE None.

(** A [Join] that writes a mark for an empty vector. *)
Definition demo_Join_marked {A : Type} (show : A -> string)
  (delimiter : string) (v : list A) : string :=
  match v with
  | [] => "<empty>"%string
  | _ => demo_Join show delimiter v
  end.

Lemma print_EventType_distinct_witness :
  print_EventType EmptyString ALLOCATE <> print_EventType EmptyString FREE.
Proof.
  apply (print_EventType_distinct EmptyString ALLOCATE FREE). discriminate.
Defined.

Lemma print_MemoryEvent_eq_iff_witness :
  print_MemoryEvent DemoNode EmptyString demo_event =
  print_MemoryEvent DemoNode EmptyString demo_traced_event.
Proof.
  apply (proj2 (print_MemoryEvent_eq_iff DemoNode EmptyString demo_event
                  demo_traced_event)).
  repeat split.
Defined.

Lemma dump_without_frame_witness :
  demo_dump demo_bare_event EmptyString false =
  Ok (print_MemoryEvent DemoNode EmptyString demo_bare_event).
Proof.
  apply (dump_without_frame DemoNode string demo_maybeSchema
           demo_canonicalSchemaString demo_getHeader demo_bare_event
           EmptyString false).
  - reflexivity.
  - left. reflexivity.
Defined.

Lemma dump_full_witness :
  demo_dump demo_traced_event EmptyString true =
  Ok (print_MemoryEvent DemoNode EmptyString demo_traced_event
        << ", pc: "%string << "7"%string << nl
        << ", node_schema: "%string
        << "aten::relu(Tensor self) -> Tensor"%string << nl
        << ", node_header: "%string
        << "%y : Tensor = aten::relu(%x)"%string << nl
        << ", stack trace: "%string << "forward.py:12"%string << nl).
Proof.
  apply (dump_full DemoNode string demo_maybeSchema
           demo_canonicalSchemaString demo_getHeader demo_traced_event
           EmptyString (mkFrameNodeId 7 relu_node)
           "aten::relu(Tensor self) -> Tensor"%string
           "forward.py:12"%string);
    reflexivity.
Defined.

Lemma print_FunctionFrameEvent_empty_witness :
  print_FunctionFrameEvent (demo_Join_marked (fun s => s))
    (demo_Join_marked string_of_Z) EmptyString
    (mkFunctionFrameEvent [] [] [] [] "forward"%string 5 9) =
  ("FUNCTION_EVENT: fn_name: forward, start_time: 5, end_time: 9" ++ nl
   ++ "input_val_names: no val names" ++ nl
   ++ "output_val_names: no val names" ++ nl
   ++ "input_ival_addrs: no ival addrs" ++ nl
   ++ "output_ival_addrs: no ival addrs" ++ nl)%string.
Proof.
  apply (print_FunctionFrameEvent_empty (demo_Join_marked (fun s => s))
           (demo_Join_marked string_of_Z) EmptyString
           (mkFunctionFrameEvent [] [] [] [] "forward"%string 5 9));
    reflexivity.
Defined.

Lemma print_MemoryObserverEvent_reveals_witness :
  let e1 := mkMemoryObserverEvent MEMORY_EVENT demo_event
              FunctionFrameEvent_default in
  let e2 := mkMemoryObserverEvent MEMORY_EVENT demo_traced_event
              (mkFunctionFrameEvent [4096] [] ["x"%string] [] "forward" 5 9) in
  event_type DemoNode e1 = event_type DemoNode e2 /\
  (event_type DemoNode e1 = MEMORY_EVENT ->
   type DemoNode (mem_event DemoNode e1) = type DemoNode (mem_event DemoNode e2) /\
   ts DemoNode (mem_event DemoNode e1) = ts DemoNode (mem_event DemoNode e2) /\
   size DemoNode (mem_event DemoNode e1) = size DemoNode (mem_event DemoNode e2) /\
   addr DemoNode (mem_event DemoNode e1) = addr DemoNode (mem_event DemoNode e2)).
Proof.
  intros e1 e2.
  apply (print_MemoryObserverEvent_reveals DemoNode
           (demo_Join (fun s => s)) (demo_Join string_of_Z)
           EmptyString e1 e2).
  reflexivity.
Defined.

Lemma callbackHandle_set_get_witness :
  hasCallbackHandle
    (set_callbackHandle DemoNode
       (MemoryObserverThreadLocalState_new DemoNode) 5) = true.
Proof.
  apply (proj2 (proj1 (proj2
           (callbackHandle_set_get DemoNode
              (MemoryObserverThreadLocalState_new DemoNode) 5 0)))).
  reflexivity.
Defined.

Lemma print_FunctionFrameEvent_Join_nonempty_witness :
  let rhs := mkFunctionFrameEvent [4096] [] ["x"%string; "y"%string] []
               "forward"%string 5 9 in
  print_FunctionFrameEvent (demo_Join (fun s => s)) (demo_Join string_of_Z)
    EmptyString rhs =
  print_FunctionFrameEvent (demo_Join_marked (fun s => s))
    (demo_Join_marked string_of_Z) EmptyString rhs.
Proof.
  intros rhs.
  apply (print_FunctionFrameEvent_Join_nonempty
           (demo_Join (fun s => s)) (demo_Join_marked (fun s => s))
           (demo_Join string_of_Z) (demo_Join_marked string_of_Z)
           EmptyString rhs).
  - intros [|x v] H; [contradiction H|]; reflexivity.
  - intros [|x v] H; [contradiction H|]; reflexivity.
Defined.
